(** * exa-js: the request-construction layer of the Exa client

    A shallow embedding of [packages/exa-js/lib/index.ts]: the [Exa] class,
    its constructor, the private [request] routine and the five public
    operations, together with the properties the specification states about
    them.

    JavaScript objects are finite maps from property names to values
    ([gmap string JsValue]); object spread is map union in which the spread
    source wins.  The network is an explicit log of the requests handed to
    [fetch] together with a server that answers them. *)

From Stdlib Require Import ZArith.
From stdpp Require Import base option list strings gmap fin_maps pretty.

Local Open Scope string_scope.
Local Open Scope Z_scope.

(** ** JavaScript values *)

(** The values that flow through the client: option objects, request bodies
    and parsed JSON responses.  The client does no arithmetic; all it can
    observe of a number is its truthiness and its conversion to a string.
    A number is therefore held as the text [Number.prototype.toString]
    gives for it: ["3"], ["0.5"], ["-2"], ["1e+21"], ["NaN"]. *)
#[warnings="-register-all"]
Inductive JsValue : Type :=
  | JUndefined
  | JNull
  | JBool (b : bool)
  | JNum (repr : string)
  | JStr (s : string)
  | JArr (elems : list JsValue)
  | JObj (fields : gmap string JsValue).

Abbreviation JsObject := (gmap string JsValue).

(** ToBoolean, as used by [!x], [x || y] and [c ? a : b].  The falsy
    numbers are zero (of either sign, both printed ["0"]) and NaN. *)
Definition truthy (v : JsValue) : bool :=
  match v with
  | JUndefined | JNull => false
  | JBool b => b
  | JNum repr => negb (String.eqb repr "0") && negb (String.eqb repr "NaN")
  | JStr s => negb (String.eqb s "")
  | JArr _ | JObj _ => true
  end.

(** The [typeof] operator. *)
Definition js_typeof (v : JsValue) : string :=
  match v with
  | JUndefined => "undefined"
  | JNull => "object"
  | JBool _ => "boolean"
  | JNum _ => "number"
  | JStr _ => "string"
  | JArr _ | JObj _ => "object"
  end.

(** [Array.prototype.join(",")] over already converted elements. *)
Fixpoint join_comma (parts : list string) : string :=
  match parts with
  | [] => ""
  | [p] => p
  | p :: rest => p ++ "," ++ join_comma rest
  end.

(** ToString, as applied to the holes of a template literal; [None] is the
    TypeError of a value that cannot be converted.  Inside an array
    [undefined] and [null] print as the empty string.  A plain object
    prints through [Object.prototype.toString], unless an own [toString]
    property (which, coming from JSON, is never callable) hides it. *)
Fixpoint ToString (v : JsValue) : option string :=
  match v with
  | JUndefined => Some "undefined"
  | JNull => Some "null"
  | JBool true => Some "true"
  | JBool false => Some "false"
  | JNum repr => Some repr
  | JStr s => Some s
  | JArr elems =>
      join_comma <$>
        (fix each (l : list JsValue) : option (list string) :=
           match l with
           | [] => Some []
           | x :: l' =>
               match (match x with
                      | JUndefined | JNull => Some ""
                      | _ => ToString x
                      end), each l' with
               | Some p, Some ps => Some (p :: ps)
               | _, _ => None
               end
           end) elems
  | JObj o =>
      match o !! "toString" with
      | Some _ => None
      | None => Some "[object Object]"
      end
  end.

(** Reading an own property of an object; a missing property reads as
    [undefined]. *)
Definition obj_get (o : JsObject) (k : string) : JsValue :=
  default JUndefined (o !! k).

(** Object spread [{...base, ...src}]: every property of [src] is written
    over [base]. *)
Definition spread (base src : JsObject) : JsObject := src ∪ base.

(** Reading a named property off an arbitrary value ([v.k], for the names
    the client reads: [id] and [error]).  Reading from [undefined] or
    [null] throws a TypeError ([None]); strings and arrays carry [length];
    every other read of a missing property is [undefined]. *)
Definition get_prop (v : JsValue) (k : string) : option JsValue :=
  match v with
  | JUndefined | JNull => None
  | JObj o => Some (obj_get o k)
  | JStr s =>
      Some (if String.eqb k "length" then JNum (pretty (String.length s))
            else JUndefined)
  | JArr l =>
      Some (if String.eqb k "length" then JNum (pretty (length l))
            else JUndefined)
  | JBool _ | JNum _ => Some JUndefined
  end.

(** ** Constants, HTTP messages and the network *)

(** [./exa.constants] is imported by the client but is not part of the
    sources at hand; its values are taken as a parameter. *)
Record Constants : Type := {
  BASE_URL : string;
  CONTENT_TYPE : string;
  USER_AGENT : string;
  ENDPOINT_SEARCH : string;
  ENDPOINT_SIMILAR_SEARCH : string;
  ENDPOINT_CONTENTS : string
}.

(** The init object given to [new Headers]: names and values in the order
    written. *)
Definition Headers : Type := list (string * string).

(** What [fetch] is called with.  [req_body] is the value handed to
    [JSON.stringify] ([None] when no body is sent); the textual encoding is
    not modelled. *)
Record HttpRequest : Type := {
  req_url : string;
  req_method : string;
  req_headers : Headers;
  req_body : option JsValue
}.

(** What [fetch] resolves to.  [resp_status] is the status code, an
    integer that [fetch] keeps in 16 bits and that prints in plain
    decimal.  [resp_json] is the outcome of [response.json()]: [None] when
    the body is not valid JSON. *)
Record HttpResponse : Type := {
  resp_status : Z;
  resp_json : option JsValue
}.

(** [response.ok]: the status is in the range 200-299. *)
Definition resp_ok (r : HttpResponse) : bool :=
  (200 <=? resp_status r) && (resp_status r <=? 299).

Inductive FetchResult : Type :=
  | FetchFailed (reason : string)
  | FetchResponse (r : HttpResponse).

(** The remote side: given the requests seen so far and a new request, how
    the transport answers. *)
Definition Server : Type := list HttpRequest -> HttpRequest -> FetchResult.

(** What a call can throw (or reject with). *)
Inductive Thrown : Type :=
  | JsError (message : string)
  | JsTypeError
  | JsonSyntaxError
  | TransportError (reason : string).

Inductive Completion (A : Type) : Type :=
  | Normal (a : A)
  | Abrupt (e : Thrown).
Arguments Normal {A} a.
Arguments Abrupt {A} e.

(** Computations that may call [fetch] and may throw: the state is the log
    of requests sent so far, oldest first. *)
Definition Net (A : Type) : Type :=
  Server -> list HttpRequest -> Completion A * list HttpRequest.

#[global] Instance Net_ret : MRet Net := fun A a _ log => (Normal a, log).

Definition throw {A} (e : Thrown) : Net A := fun _ log => (Abrupt e, log).

#[global] Instance Net_bind : MBind Net := fun A B k m srv log =>
  match m srv log with
  | (Normal a, log') => k a srv log'
  | (Abrupt e, log') => (Abrupt e, log')
  end.

(** [await fetch(url, init)]. *)
Definition fetch (r : HttpRequest) : Net HttpResponse :=
  fun srv log =>
    match srv log r with
    | FetchFailed reason => (Abrupt (TransportError reason), (log ++ [r])%list)
    | FetchResponse resp => (Normal resp, (log ++ [r])%list)
    end.

(** [await response.json()]. *)
Definition response_json (r : HttpResponse) : Net JsValue :=
  match resp_json r with
  | Some v => mret v
  | None => throw JsonSyntaxError
  end.

(** Lifting a property read that may throw a TypeError. *)
Definition read_prop (v : JsValue) (k : string) : Net JsValue :=
  match get_prop v k with
  | Some x => mret x
  | None => throw JsTypeError
  end.

(** Lifting a string conversion that may throw a TypeError. *)
Definition to_string (v : JsValue) : Net string :=
  match ToString v with
  | Some s => mret s
  | None => throw JsTypeError
  end.

(** ** The client *)

(** The two private fields of the class. *)
Record Exa : Type := {
  baseURL : string;
  headers : Headers
}.

(** The name of the environment variable the constructor falls back to. *)
Definition EXASEARCH_API_KEY : string := "EXASEARCH_API_KEY".

(** [a || b] on optional strings: [a] when it is a non-empty string,
    otherwise [b]. *)
Definition str_or (a b : option string) : option string :=
  match a with
  | Some s => if truthy (JStr s) then Some s else b
  | None => b
  end.

(** [!x] on an optional string. *)
Definition str_falsy (a : option string) : bool :=
  match a with
  | Some s => negb (truthy (JStr s))
  | None => true
  end.

(** The [ids] parameter of [getContents], of type
    [string | string[] | SearchResult[]]: a string or an array.  The
    elements of the array are kept as plain values, since the code
    inspects them at run time. *)
Inductive IdsArg : Type :=
  | IdsString (s : string)
  | IdsArray (elems : list JsValue).

(** [ids.length]. *)
Definition ids_length (ids : IdsArg) : nat :=
  match ids with
  | IdsString s => String.length s
  | IdsArray l => length l
  end.

(** The public operations as data, to speak about "every call". *)
Inductive Call : Type :=
  | CallSearch (query : string) (options : option JsObject)
  | CallSearchAndContents (query : string) (options : option JsObject)
  | CallFindSimilar (url : string) (options : option JsObject)
  | CallFindSimilarAndContents (url : string) (options : option JsObject)
  | CallGetContents (ids : IdsArg) (options : option JsObject).

Section Client.

Variable constants : Constants.

(** [process.env]. *)
Variable env : gmap string string.

(** The message of the error thrown by the constructor. *)
Definition API_KEY_MISSING : string :=
  "API key must be provided as an argument or as an environment variable (EXASEARCH_API_KEY)".

(** The check that [new Headers] applies to every header value before it
    stores it.  [Headers] comes with the fetch implementation, which
    decides what a legal value is (line breaks, for one, never are), so
    the check is a parameter. *)
Variable legal_header_value : string -> bool.

(** [new Headers(init)]: a TypeError when a value is not legal.  The three
    names the constructor uses are legal header names. *)
Definition new_Headers (init : Headers) : Net Headers :=
  if forallb (fun h => legal_header_value h.2) init then mret init
  else throw JsTypeError.

(** [constructor(apiKey?, baseURL = constants.BASE_URL)].  Past the guard
    [currentApiKey] is a non-empty string; the [default] only spells out
    how [Headers] would print [undefined]. *)
Definition new_Exa (apiKey : option string) (baseURL_arg : option string)
  : Net Exa :=
  let baseURL := default (BASE_URL constants) baseURL_arg in
  let currentApiKey := str_or apiKey (env !! EXASEARCH_API_KEY) in
  if str_falsy currentApiKey then
    throw (JsError API_KEY_MISSING)
  else
    headers ← new_Headers [("x-api-key", default "undefined" currentApiKey);
                           ("Content-Type", CONTENT_TYPE constants);
                           ("User-Agent", USER_AGENT constants)];
    mret {| baseURL := baseURL; headers := headers |}.

(** [private async request(endpoint, method, body?)]. *)
Definition request (this : Exa) (endpoint method : string)
    (body : option JsValue) : Net JsValue :=
  response ← fetch {| req_url := baseURL this ++ endpoint;
                      req_method := method;
                      req_headers := headers this;
                      req_body := match body with
                                  | Some b => if truthy b then Some b else None
                                  | None => None
                                  end |};
  if negb (resp_ok response) then
    parsed ← response_json response;
    message ← read_prop parsed "error";
    message_text ← to_string message;
    throw (JsError ("Request failed with status "
                      ++ pretty (resp_status response)
                      ++ ". " ++ message_text))
  else
    response_json response.

(** An object literal that ends in [...options], where [options] may be
    [undefined] (which spreads nothing). *)
Definition spread_opt (base : JsObject) (options : option JsObject)
  : JsObject :=
  match options with
  | Some o => spread base o
  | None => base
  end.

(** [async search(query, options?)]. *)
Definition search (this : Exa) (query : string) (options : option JsObject)
  : Net JsValue :=
  request this (ENDPOINT_SEARCH constants) "POST"
    (Some (JObj (spread_opt {[ "query" := JStr query ]} options))).

(** The value of the [contents] property computed by both "and contents"
    operations from the destructured [text] and [highlights]. *)
Definition contents_of (text highlights : JsValue) : JsValue :=
  if negb (truthy text) && negb (truthy highlights) then
    JObj {[ "text" := JBool true ]}
  else
    JObj (spread
            (spread ∅ (if truthy text then {[ "text" := text ]} else ∅))
            (if truthy highlights then {[ "highlights" := highlights ]}
             else ∅)).

(** [const { text, highlights, ...rest } = options || {}] followed by the
    object literal [{ key, contents: ..., ...rest }], shared by
    [searchAndContents] ([key] is [query]) and [findSimilarAndContents]
    ([key] is [url]). *)
Definition contents_body (key value : string) (options : option JsObject)
  : JsObject :=
  let o : JsObject := default ∅ options in
  let text := obj_get o "text" in
  let highlights := obj_get o "highlights" in
  let rest : JsObject := delete "highlights" (delete "text" o) in
  spread (<[ "contents" := contents_of text highlights ]>
            {[ key := JStr value ]})
         rest.

(** [async searchAndContents(query, options?)]. *)
Definition searchAndContents (this : Exa) (query : string)
    (options : option JsObject) : Net JsValue :=
  request this (ENDPOINT_SEARCH constants) "POST"
    (Some (JObj (contents_body "query" query options))).

(** [async findSimilar(url, options?)]. *)
Definition findSimilar (this : Exa) (url : string)
    (options : option JsObject) : Net JsValue :=
  request this (ENDPOINT_SIMILAR_SEARCH constants) "POST"
    (Some (JObj (spread_opt {[ "url" := JStr url ]} options))).

(** [async findSimilarAndContents(url, options?)]. *)
Definition findSimilarAndContents (this : Exa) (url : string)
    (options : option JsObject) : Net JsValue :=
  request this (ENDPOINT_SIMILAR_SEARCH constants) "POST"
    (Some (JObj (contents_body "url" url options))).

(** The computation of [requestIds]: a string is wrapped, an array whose
    first element is a string is taken as it is, any other array is mapped
    through [result => result.id].  [None] is the TypeError thrown by that
    callback on an element that is [undefined] or [null]. *)
Definition requestIds_of (ids : IdsArg) : option (list JsValue) :=
  match ids with
  | IdsString s => Some [JStr s]
  | IdsArray l =>
      if String.eqb (js_typeof (default JUndefined (l !! 0%nat))) "string"
      then Some l
      else mapM (fun result => get_prop result "id") l
  end.

(** [async getContents(ids, options?)]. *)
Definition getContents (this : Exa) (ids : IdsArg)
    (options : option JsObject) : Net JsValue :=
  if Nat.eqb (ids_length ids) 0 then
    throw (JsError "Must provide at least one ID")
  else
    match requestIds_of ids with
    | Some requestIds =>
        request this (ENDPOINT_CONTENTS constants) "POST"
          (Some (JObj (spread_opt {[ "ids" := JArr requestIds ]} options)))
    | None => throw JsTypeError
    end.

Definition invoke (this : Exa) (c : Call) : Net JsValue :=
  match c with
  | CallSearch q o => search this q o
  | CallSearchAndContents q o => searchAndContents this q o
  | CallFindSimilar u o => findSimilar this u o
  | CallFindSimilarAndContents u o => findSimilarAndContents this u o
  | CallGetContents ids o => getContents this ids o
  end.

End Client.

(** [needle] occurs in [hay]. *)
Definition contains (needle hay : string) : Prop :=
  exists pre post, hay = pre ++ needle ++ post.

(** The request [request] hands to [fetch] for an object body. *)
Definition request_for (this : Exa) (endpoint method : string)
    (body : JsObject) : HttpRequest :=
  {| req_url := baseURL this ++ endpoint;
     req_method := method;
     req_headers := headers this;
     req_body := Some (JObj body) |}.

(** The log after a sequence of calls on one client, whatever each call
    resolved to or threw. *)
Definition session_log (K : Constants) (this : Exa) (srv : Server)
    (log : list HttpRequest) (calls : list Call) : list HttpRequest :=
  foldl (fun l c => snd (invoke K this c srv l)) log calls.

(** Sample values of the constants and a sample client and server, used to
    instantiate the statements below at concrete inputs. *)
Definition sample_constants : Constants :=
  {| BASE_URL := "https://api.exa.ai";
     CONTENT_TYPE := "application/json";
     USER_AGENT := "exa-node";
     ENDPOINT_SEARCH := "/search";
     ENDPOINT_SIMILAR_SEARCH := "/findSimilar";
     ENDPOINT_CONTENTS := "/contents" |}.

Definition sample_client : Exa :=
  {| baseURL := "https://api.exa.ai";
     headers := [("x-api-key", "k");
                 ("Content-Type", "application/json");
                 ("User-Agent", "exa-node")] |}.

(** A server that answers every request with the given status and JSON. *)
Definition always (status : Z) (json : JsValue) : Server :=
  fun _ _ => FetchResponse {| resp_status := status; resp_json := Some json |}.

(** [body] consists of the mandatory [key] and the caller's option fields:
    its field set is the union of the two, every option field carries the
    caller's value, and the mandatory key carries [mandatory] unless the
    options themselves set that key. *)
Definition key_plus_options (key : string) (mandatory : JsValue)
    (options : option JsObject) (body : JsObject) : Prop :=
  dom body = {[ key ]} ∪ dom (default (∅ : JsObject) options)
  /\ (forall k v,
        default (∅ : JsObject) options !! k = Some v -> body !! k = Some v)
  /\ (default (∅ : JsObject) options !! key = None ->
      body !! key = Some mandatory).

(** A [SearchResult] object as [getContents] sees it: any object whose [id]
    property is the string [i]. *)
Definition result_with_id (r : string * JsObject) : JsValue :=
  JObj (<[ "id" := JStr r.1 ]> r.2).

(** [getContents] sends exactly one request, to the contents endpoint, and
    the [ids] field of its body is the list of strings [L]. *)
Definition sends_ids (K : Constants) (this : Exa) (ids : IdsArg)
    (options : option JsObject) (srv : Server) (log : list HttpRequest)
    (L : list string) : Prop :=
  exists body,
    snd (getContents K this ids options srv log)
    = (log ++ [request_for this (ENDPOINT_CONTENTS K) "POST" body])%list
    /\ body !! "ids" = Some (JArr (JStr <$> L)).

(** Options that ask for text and also carry an [ids] property of their
    own. *)
Definition options_with_own_ids : JsObject :=
  {[ "text" := JBool true; "ids" := JArr [JStr "other"] ]}.

(** A failure body whose [error] field cannot be converted to a string:
    [{"error": {"toString": "x"}}]. *)
Definition unprintable_error : JsValue :=
  JObj {[ "error" := JObj {[ "toString" := JStr "x" ]} ]}.

(** The success body of the specification's example:
    [{"results":[{"title":"T","url":"u","id":"1"}]}]. *)
Definition sample_results : JsValue :=
  JObj {[ "results" :=
            JArr [JObj {[ "title" := JStr "T";
                          "url" := JStr "u";
                          "id" := JStr "1" ]}] ]}.

(** The body carries the default [contents: {text: true}] and neither
    [text] nor [highlights] at the top level. *)
Definition defaults_to_text (body : JsObject) : Prop :=
  body !! "contents" = Some (JObj {[ "text" := JBool true ]})
  /\ body !! "text" = None
  /\ body !! "highlights" = None.

(** The declared type of the [text] and [highlights] options,
    [TextContentsOptions | true] and [HighlightsContentsOptions | true],
    both optional: [true], an object, or [undefined]. *)
Definition content_value_typed (v : JsValue) : bool :=
  match v with
  | JUndefined | JBool true | JObj _ => true
  | _ => false
  end.

(** [options] respects the declared type of [ContentsOptions] on the two
    keys it declares; other keys are unconstrained. *)
Definition ContentsOptions_typed (o : JsObject) : bool :=
  content_value_typed (obj_get o "text")
  && content_value_typed (obj_get o "highlights").

(** What [options] supplies under the content key [k]: the entry itself,
    or nothing when the key is missing or explicitly [undefined]. *)
Definition supplied (o : JsObject) (k : string) : JsObject :=
  match o !! k with
  | None | Some JUndefined => ∅
  | Some v => {[ k := v ]}
  end.

(** The content keys supplied by [options]. *)
Definition supplied_contents (o : JsObject) : JsObject :=
  supplied o "text" ∪ supplied o "highlights".

(** The body nests exactly the supplied content keys under [contents] and
    has neither [text] nor [highlights] at the top level. *)
Definition nests_supplied_contents (o body : JsObject) : Prop :=
  body !! "contents" = Some (JObj (supplied_contents o))
  /\ body !! "text" = None
  /\ body !! "highlights" = None.

(** The options of the specification's example:
    [{text: true, highlights: {numSentences: 1}}]. *)
Definition sample_contents_options : JsObject :=
  {[ "text" := JBool true;
     "highlights" := JObj {[ "numSentences" := JNum "1" ]} ]}.

(** Options that carry neither content key but a [contents] property of
    their own. *)
Definition options_with_own_contents : JsObject :=
  {[ "contents" := JObj {[ "highlights" := JBool true ]} ]}.

(** Options that supply [text] and also carry a [contents] property of
    their own. *)
Definition text_with_own_contents : JsObject :=
  {[ "text" := JBool true;
     "contents" := JObj {[ "highlights" := JBool true ]} ]}.

(** The header set built by the constructor for the credential [key]. *)
Definition header_set (K : Constants) (key : string) : Headers :=
  [("x-api-key", key);
   ("Content-Type", CONTENT_TYPE K);
   ("User-Agent", USER_AGENT K)].

(** [new Headers] accepts the three values of that header set. *)
Definition header_values_legal (legal : string -> bool) (K : Constants)
    (key : string) : bool :=
  forallb legal (snd <$> header_set K key).

(** A sample check, the one node-fetch applies: a legal value holds only
    tabs, printable ASCII and bytes from 128 up. *)
Fixpoint printable_header_value (s : string) : bool :=
  match s with
  | EmptyString => true
  | String c rest =>
      let n := Ascii.nat_of_ascii c in
      ((n =? 9) || ((32 <=? n) && negb (n =? 127)))%nat
      && printable_header_value rest
  end.

(** A key with a line break in it. *)
Definition key_with_line_break : string :=
  "a" ++ String (Ascii.ascii_of_nat 10) "b".

(** An environment in which only the designated variable is set. *)
Definition env_with_key (key : string) : gmap string string :=
  {[ EXASEARCH_API_KEY := key ]}.

(** The endpoint each operation posts to. *)
Definition endpoint_of (K : Constants) (c : Call) : string :=
  match c with
  | CallSearch _ _ | CallSearchAndContents _ _ => ENDPOINT_SEARCH K
  | CallFindSimilar _ _ | CallFindSimilarAndContents _ _ =>
      ENDPOINT_SIMILAR_SEARCH K
  | CallGetContents _ _ => ENDPOINT_CONTENTS K
  end.

(** A transport on which every request fails. *)
Definition offline (reason : string) : Server :=
  fun _ _ => FetchFailed reason.

(** A server whose answers are not JSON. *)
Definition always_unparseable (status : Z) : Server :=
  fun _ _ => FetchResponse {| resp_status := status; resp_json := None |}.

(** [undefined] and [null], the two values no property can be read from. *)
Definition nullish (v : JsValue) : bool :=
  match v with
  | JUndefined | JNull => true
  | _ => false
  end.

(** The field set of the body built by an "and contents" operation:
    the mandatory [key], [contents], and every option field other than
    [text] and [highlights], each with the caller's value; [text] and
    [highlights] never appear at the top level. *)
Definition and_contents_fields (key value : string)
    (options : option JsObject) (body : JsObject) : Prop :=
  let o : JsObject := default ∅ options in
  dom body = {[ key; "contents" ]} ∪ (dom o ∖ {[ "text"; "highlights" ]})
  /\ (forall k v,
        k <> "text" -> k <> "highlights" ->
        o !! k = Some v -> body !! k = Some v)
  /\ body !! "text" = None
  /\ body !! "highlights" = None
  /\ (o !! key = None -> body !! key = Some (JStr value)).

(** The computed [contents] object [m] asks for something and only for
    what the options hold: it is not empty, its keys are [text] and
    [highlights], its values are truthy, and each is the caller's value or
    the default [text: true]. *)
Definition contents_request (o m : JsObject) : Prop :=
  m <> ∅
  /\ forall k v,
       m !! k = Some v ->
       (k = "text" \/ k = "highlights")
       /\ truthy v = true
       /\ (o !! k = Some v \/ (k = "text" /\ v = JBool true)).

(** The options [search] or [findSimilar] would need to send the body of
    the matching "and contents" operation. *)
Definition with_contents (options : option JsObject) : JsObject :=
  let o : JsObject := default ∅ options in
  <[ "contents" := contents_of (obj_get o "text") (obj_get o "highlights") ]>
    (delete "highlights" (delete "text" o)).



(** None of the calls is a [getContents]. *)
Definition no_getContents (calls : list Call) : Prop :=
  Forall (fun c => forall ids o, c <> CallGetContents ids o) calls.

(** ** The definitions at work *)

Example ToString_array :
  ToString (JArr [JNum "1"; JNull; JStr "a"; JArr [JBool true; JNum "1e+21"]])
  = Some "1,,a,true,1e+21".
Proof. vm_compute. reflexivity. Qed.

Example ToString_hidden_toString :
  ToString (JObj {[ "toString" := JStr "s" ]}) = None.
Proof. vm_compute. reflexivity. Qed.

(** An option named like the mandatory key takes its place. *)
Example search_body_query_option :
  spread_opt {[ "query" := JStr "q" ]} (Some {[ "query" := JStr "other" ]})
    !! "query"
  = Some (JStr "other").
Proof. vm_compute. reflexivity. Qed.

(** A falsy [text] is treated like a missing one. *)
Example contents_of_false_text :
  contents_of (JBool false) JUndefined = JObj {[ "text" := JBool true ]}.
Proof. vm_compute. reflexivity. Qed.

Example contents_of_highlights_only :
  contents_of JUndefined (JBool true) = JObj {[ "highlights" := JBool true ]}.
Proof. vm_compute. reflexivity. Qed.

(** Only the first element of an array decides how it is read. *)
Example requestIds_of_first_element_decides :
  requestIds_of (IdsArray [JStr "a"; JObj ∅]) = Some [JStr "a"; JObj ∅].
Proof. vm_compute. reflexivity. Qed.

Example requestIds_of_objects :
  requestIds_of (IdsArray [JObj {[ "id" := JStr "a" ]}; JObj ∅])
  = Some [JStr "a"; JUndefined].
Proof. vm_compute. reflexivity. Qed.

Example requestIds_of_undefined_element :
  requestIds_of (IdsArray [JUndefined]) = None.
Proof. vm_compute. reflexivity. Qed.

(** ** The request routine *)

Section RequestFacts.

Variables (this : Exa) (endpoint method : string) (body : JsObject).
Variables (srv : Server) (log : list HttpRequest).

Let req := request_for this endpoint method body.
Let run := request this endpoint method (Some (JObj body)) srv log.

(** [request] calls [fetch] exactly once, with the stored headers and the
    body it was given. *)
Lemma request_sent : snd run = (log ++ [req])%list.
Proof.
  subst run req. unfold request, request_for, mbind, Net_bind, fetch. simpl.
  destruct (srv log _) as [reason|resp]; simpl; [reflexivity|].
  unfold response_json, read_prop.
  destruct (resp_ok resp); simpl.
  - destruct (resp_json resp); reflexivity.
  - destruct (resp_json resp) as [v|]; simpl; [|reflexivity].
    destruct (get_prop v "error") as [message|]; simpl; [|reflexivity].
    unfold to_string. destruct (ToString message); reflexivity.
Qed.

(** A transport failure is passed on as it is. *)
Lemma request_transport_failure reason :
  srv log req = FetchFailed reason -> fst run = Abrupt (TransportError reason).
Proof.
  intros Hsrv. subst run req.
  unfold request, request_for, mbind, Net_bind, fetch in *. simpl in *.
  rewrite Hsrv. reflexivity.
Qed.

(** A successful response resolves to its parsed body. *)
Lemma request_success resp v :
  srv log req = FetchResponse resp ->
  resp_ok resp = true ->
  resp_json resp = Some v ->
  fst run = Normal v.
Proof.
  intros Hsrv Hok Hjson. subst run req.
  unfold request, request_for, mbind, Net_bind, fetch in *. simpl in *.
  rewrite Hsrv. simpl. rewrite Hok. simpl.
  unfold response_json. rewrite Hjson. reflexivity.
Qed.

(** A failed response with a JSON object body throws the request error
    built from the status and the [error] property. *)
Lemma request_failure resp o text :
  srv log req = FetchResponse resp ->
  resp_ok resp = false ->
  resp_json resp = Some (JObj o) ->
  ToString (obj_get o "error") = Some text ->
  fst run
  = Abrupt (JsError ("Request failed with status "
                       ++ pretty (resp_status resp) ++ ". " ++ text)).
Proof.
  intros Hsrv Hok Hjson Htext. subst run req.
  unfold request, request_for, mbind, Net_bind, fetch in *. simpl in *.
  rewrite Hsrv. simpl. rewrite Hok. simpl.
  unfold response_json. rewrite Hjson. simpl.
  unfold to_string. rewrite Htext. reflexivity.
Qed.

End RequestFacts.

(** ** Every call either throws at once or goes through [request] *)

Lemma invoke_cases K this c :
  (exists e, forall srv log, invoke K this c srv log = (Abrupt e, log))
  \/ (exists endpoint body,
        invoke K this c = request this endpoint "POST" (Some (JObj body))).
Proof.
  destruct c as [q o|q o|u o|u o|ids o]; simpl;
    try (right; eexists _, _; reflexivity).
  unfold getContents.
  destruct (Nat.eqb (ids_length ids) 0).
  - left. eexists. reflexivity.
  - destruct (requestIds_of ids) as [l|].
    + right. eexists _, _. reflexivity.
    + left. eexists. reflexivity.
Qed.

(** A call adds at most one request to the log, and that request carries
    the client's base URL and headers. *)
Lemma invoke_log K this c srv log :
  snd (invoke K this c srv log) = log
  \/ exists endpoint body,
       snd (invoke K this c srv log)
       = (log ++ [request_for this endpoint "POST" body])%list
       /\ invoke K this c = request this endpoint "POST" (Some (JObj body)).
Proof.
  destruct (invoke_cases K this c) as [[e He]|(ep & b & Hreq)].
  - left. rewrite He. reflexivity.
  - right. exists ep, b. split; [|exact Hreq].
    rewrite Hreq. apply request_sent.
Qed.

Lemma app_singleton_neq {A} (l : list A) (x : A) : l <> (l ++ [x])%list.
Proof.
  intros H. apply (f_equal length) in H. rewrite length_app in H.
  simpl in H. lia.
Qed.

Lemma contains_intro (pre needle post : string) :
  contains needle (pre ++ needle ++ post).
Proof. exists pre, post. reflexivity. Qed.

Lemma string_app_assoc (a b c : string) : (a ++ b) ++ c = a ++ (b ++ c).
Proof.
  induction a as [|x a IH]; [reflexivity|].
  change (String x ((a ++ b) ++ c) = String x (a ++ (b ++ c))).
  now rewrite IH.
Qed.

Lemma string_app_nil_r (a : string) : a ++ "" = a.
Proof.
  induction a as [|x a IH]; [reflexivity|].
  change (String x (a ++ "") = String x a).
  now rewrite IH.
Qed.

(** ** Empty identifier inputs *)

(** C5. [getContents([])] throws the input error "Must provide at least one
    ID" and the log of requests is left as it was: no HTTP request is made
    for that call. *)
Theorem getContents_empty_list_throws :
  forall K this options srv log,
    getContents K this (IdsArray []) options srv log
    = (Abrupt (JsError "Must provide at least one ID"), log).
Proof. reflexivity. Qed.

(** C9. [getContents("")] throws the same input error without a network
    call, because the empty string has length 0 like the empty list; and
    whenever [getContents] does send a request, its [ids] input had a
    non-zero length. *)
Theorem getContents_empty_string_throws :
  forall K this options srv log,
    getContents K this (IdsString "") options srv log
    = (Abrupt (JsError "Must provide at least one ID"), log)
    /\ (forall ids,
          ids_length ids = 0%nat ->
          getContents K this ids options srv log
          = (Abrupt (JsError "Must provide at least one ID"), log))
    /\ (forall ids,
          snd (getContents K this ids options srv log) <> log ->
          ids_length ids <> 0%nat).
Proof.
  intros K this options srv log. split; [reflexivity|]. split.
  - intros ids Hlen. unfold getContents. rewrite Hlen. reflexivity.
  - intros ids Hsent Hlen. apply Hsent.
    unfold getContents. rewrite Hlen. reflexivity.
Qed.

Lemma getContents_empty_string_throws_witness :
  ids_length (IdsArray []) = 0%nat
  /\ getContents sample_constants sample_client (IdsArray []) None
       (always 200 JNull) []
     = (Abrupt (JsError "Must provide at least one ID"), [])
  /\ ids_length (IdsString "id1") <> 0%nat.
Proof.
  pose proof (getContents_empty_string_throws sample_constants sample_client
                None (always 200 JNull) []) as (_ & Hzero & Hsent).
  split; [reflexivity|]. split.
  - apply (Hzero (IdsArray [])). reflexivity.
  - apply (Hsent (IdsString "id1")). vm_compute. discriminate.
Defined.

(** ** Responses *)

(** C7, as stated, fails: a non-success response whose JSON body has an
    [error] field that cannot be converted to a string (an object with a
    [toString] property of its own) makes the call reject with a TypeError,
    which carries neither the status code nor any message. *)
Lemma unprintable_error_field_is_type_error :
  resp_ok {| resp_status := 401; resp_json := Some unprintable_error |}
  = false
  /\ get_prop unprintable_error "error"
     = Some (JObj {[ "toString" := JStr "x" ]})
  /\ fst (search sample_constants sample_client "q" None
            (always 401 unprintable_error) [])
     = Abrupt JsTypeError
  /\ forall m,
       fst (search sample_constants sample_client "q" None
              (always 401 unprintable_error) [])
       <> Abrupt (JsError m).
Proof.
  split; [reflexivity|]. split; [reflexivity|].
  assert (Hrun : fst (search sample_constants sample_client "q" None
                        (always 401 unprintable_error) [])
                 = Abrupt JsTypeError) by (vm_compute; reflexivity).
  split; [exact Hrun|]. intros m. rewrite Hrun. discriminate.
Qed.

(** C7 (amended). For every operation: when the request it sent is
    answered with a non-success status and a JSON object with an [error]
    field that can be converted to a string, the call fails with an [Error]
    whose message is "Request failed with status <status>. <text>", where
    [text] is the converted field (a string message [msg] is its own
    conversion); the message contains both the decimal status code and
    [text]. *)
Theorem failed_response_reports_status_and_message :
  forall K this call srv log sent resp o v text,
    snd (invoke K this call srv log) = (log ++ [sent])%list ->
    srv log sent = FetchResponse resp ->
    resp_ok resp = false ->
    resp_json resp = Some (JObj o) ->
    o !! "error" = Some v ->
    ToString v = Some text ->
    exists m,
      fst (invoke K this call srv log) = Abrupt (JsError m)
      /\ m = "Request failed with status "
               ++ pretty (resp_status resp) ++ ". " ++ text
      /\ contains (pretty (resp_status resp)) m
      /\ contains text m.
Proof.
  intros K this call srv log sent resp o v text
    Hsent Hsrv Hok Hjson Herr Htext.
  destruct (invoke_log K this call srv log) as [Hno|(ep & b & Hlog & Hreq)].
  - rewrite Hno in Hsent. destruct (app_singleton_neq _ _ Hsent).
  - rewrite Hlog in Hsent. apply app_inv_head in Hsent.
    injection Hsent as <-.
    eexists. split; [|split; [reflexivity|split]].
    + rewrite Hreq.
      apply (request_failure this ep "POST" b srv log resp o text
               Hsrv Hok Hjson).
      unfold obj_get. rewrite Herr. exact Htext.
    + apply contains_intro.
    + exists ("Request failed with status "
                ++ pretty (resp_status resp) ++ ". "), "".
      rewrite string_app_nil_r. rewrite !string_app_assoc. reflexivity.
Qed.

Lemma failed_response_reports_status_and_message_witness :
  exists m,
    fst (search sample_constants sample_client "q" None
           (always 401 (JObj {[ "error" := JStr "bad key" ]})) [])
    = Abrupt (JsError m)
    /\ m = "Request failed with status 401. bad key"
    /\ contains "401" m
    /\ contains "bad key" m.
Proof.
  apply (failed_response_reports_status_and_message
           sample_constants sample_client (CallSearch "q" None)
           (always 401 (JObj {[ "error" := JStr "bad key" ]})) []
           (request_for sample_client "/search" "POST"
              {[ "query" := JStr "q" ]})
           {| resp_status := 401;
              resp_json := Some (JObj {[ "error" := JStr "bad key" ]}) |}
           {[ "error" := JStr "bad key" ]} (JStr "bad key") "bad key");
    reflexivity.
Defined.

(** C8. A 2xx response to [search] resolves to its parsed JSON body as it
    is: the value returned is exactly the value [response.json()] produced,
    whatever its shape. *)
Theorem search_resolves_body_verbatim :
  forall K this query options srv log resp v,
    srv log (request_for this (ENDPOINT_SEARCH K) "POST"
               (spread_opt {[ "query" := JStr query ]} options))
    = FetchResponse resp ->
    200 <= resp_status resp <= 299 ->
    resp_json resp = Some v ->
    fst (search K this query options srv log) = Normal v.
Proof.
  intros K this query options srv log resp v Hsrv [Hlo Hhi] Hjson.
  unfold search. eapply request_success; [exact Hsrv| |exact Hjson].
  unfold resp_ok. apply andb_true_intro. split; apply Z.leb_le; assumption.
Qed.

Lemma search_resolves_body_verbatim_witness :
  fst (search sample_constants sample_client "q" None
         (always 200 sample_results) [])
  = Normal sample_results.
Proof.
  apply (search_resolves_body_verbatim sample_constants sample_client "q" None
           (always 200 sample_results) []
           {| resp_status := 200; resp_json := Some sample_results |});
    [reflexivity | simpl; lia | reflexivity].
Defined.

(** ** Bodies built by spreading the options *)

Lemma spread_opt_key_plus_options key mandatory options :
  key_plus_options key mandatory options
    (spread_opt {[ key := mandatory ]} options).
Proof.
  unfold key_plus_options, spread_opt, spread.
  destruct options as [o|]; simpl.
  - split; [|split].
    + rewrite dom_union_L, dom_singleton_L. apply (comm_L (∪)).
    + intros k v Hk. apply lookup_union_Some_l. exact Hk.
    + intros Hnone. rewrite lookup_union_r by exact Hnone.
      apply lookup_singleton_eq.
  - split; [|split].
    + rewrite dom_singleton_L, dom_empty_L, (right_id_L ∅ (∪)). reflexivity.
    + intros k v Hk. rewrite lookup_empty in Hk. discriminate.
    + intros _. apply lookup_singleton_eq.
Qed.

(** C3. For [search], [findSimilar] and [getContents] (when it sends a
    request at all) and any options object, or none: the field set of the
    request body is the union of the mandatory key ([query], [url], [ids])
    and the caller's option fields, every option field carries the caller's
    value, and nothing else is added. *)
Theorem body_is_mandatory_key_plus_options :
  forall K this options srv log,
    (forall query,
        exists body,
          snd (search K this query options srv log)
          = (log ++ [request_for this (ENDPOINT_SEARCH K) "POST" body])%list
          /\ key_plus_options "query" (JStr query) options body)
    /\ (forall url,
          exists body,
            snd (findSimilar K this url options srv log)
            = (log ++ [request_for this (ENDPOINT_SIMILAR_SEARCH K) "POST"
                         body])%list
            /\ key_plus_options "url" (JStr url) options body)
    /\ (forall ids requestIds,
          ids_length ids <> 0%nat ->
          requestIds_of ids = Some requestIds ->
          exists body,
            snd (getContents K this ids options srv log)
            = (log ++ [request_for this (ENDPOINT_CONTENTS K) "POST"
                         body])%list
            /\ key_plus_options "ids" (JArr requestIds) options body).
Proof.
  intros K this options srv log. split; [|split].
  - intros query. eexists. split.
    + unfold search. apply request_sent.
    + apply spread_opt_key_plus_options.
  - intros url. eexists. split.
    + unfold findSimilar. apply request_sent.
    + apply spread_opt_key_plus_options.
  - intros ids requestIds Hlen Hids. eexists. split.
    + unfold getContents.
      apply Nat.eqb_neq in Hlen. rewrite Hlen, Hids. apply request_sent.
    + apply spread_opt_key_plus_options.
Qed.

Lemma body_is_mandatory_key_plus_options_witness :
  exists body,
    snd (getContents sample_constants sample_client
           (IdsArray [JStr "id1"; JStr "id2"])
           (Some {[ "text" := JBool true ]}) (always 200 JNull) [])
    = ([] ++ [request_for sample_client "/contents" "POST" body])%list
    /\ key_plus_options "ids" (JArr [JStr "id1"; JStr "id2"])
         (Some {[ "text" := JBool true ]}) body.
Proof.
  pose proof (body_is_mandatory_key_plus_options sample_constants
                sample_client (Some {[ "text" := JBool true ]})
                (always 200 JNull) []) as (_ & _ & Hget).
  apply (Hget (IdsArray [JStr "id1"; JStr "id2"]) [JStr "id1"; JStr "id2"]).
  - simpl. lia.
  - reflexivity.
Defined.

(** ** Splitting the content options *)

Section ContentsBody.

Variables (key value : string) (options : option JsObject).

Lemma contents_body_no_text :
  key <> "text" -> contents_body key value options !! "text" = None.
Proof.
  intros Hkey. unfold contents_body, spread.
  apply lookup_union_None. split.
  - rewrite lookup_delete_ne by discriminate. apply lookup_delete_eq.
  - rewrite lookup_insert_ne by discriminate.
    apply lookup_singleton_ne. exact Hkey.
Qed.

Lemma contents_body_no_highlights :
  key <> "highlights" ->
  contents_body key value options !! "highlights" = None.
Proof.
  intros Hkey. unfold contents_body, spread.
  apply lookup_union_None. split.
  - apply lookup_delete_eq.
  - rewrite lookup_insert_ne by discriminate.
    apply lookup_singleton_ne. exact Hkey.
Qed.

(** The [contents] property is the computed one unless the caller's
    options carry a [contents] property of their own, which then wins. *)
Lemma contents_body_contents :
  contents_body key value options !! "contents"
  = match default (∅ : JsObject) options !! "contents" with
    | Some own => Some own
    | None =>
        Some (contents_of (obj_get (default ∅ options) "text")
                (obj_get (default ∅ options) "highlights"))
    end.
Proof.
  unfold contents_body, spread. rewrite lookup_union.
  rewrite !lookup_delete_ne by discriminate.
  rewrite lookup_insert_eq.
  destruct (default ∅ options !! "contents"); reflexivity.
Qed.

End ContentsBody.

Lemma contents_of_undefined :
  contents_of JUndefined JUndefined = JObj {[ "text" := JBool true ]}.
Proof. reflexivity. Qed.

Lemma content_value_truthy v :
  content_value_typed v = true -> v <> JUndefined -> truthy v = true.
Proof. destruct v as [| |[]| | | |]; simpl; congruence. Qed.

Lemma supplied_obj_get o k :
  content_value_typed (obj_get o k) = true ->
  supplied o k
  = if truthy (obj_get o k) then {[ k := obj_get o k ]} else ∅.
Proof.
  unfold supplied, obj_get.
  destruct (o !! k) as [[| |[]| | | |]|]; simpl; congruence.
Qed.

(** For options typed as declared, the computed [contents] object holds
    exactly the supplied content keys, provided there is one. *)
Lemma contents_of_supplied o :
  ContentsOptions_typed o = true ->
  supplied_contents o <> ∅ ->
  contents_of (obj_get o "text") (obj_get o "highlights")
  = JObj (supplied_contents o).
Proof.
  unfold ContentsOptions_typed, supplied_contents, contents_of, spread.
  intros [Ht Hh]%andb_prop Hsome.
  rewrite (supplied_obj_get o "text" Ht) in *.
  rewrite (supplied_obj_get o "highlights" Hh) in *.
  destruct (truthy (obj_get o "text")), (truthy (obj_get o "highlights"));
    simpl in *; try reflexivity.
  exfalso. apply Hsome. reflexivity.
Qed.

(** C1, as stated, fails: options that supply neither [text] nor
    [highlights] but carry a [contents] property of their own have that
    property spread over the default, so the body's [contents] is the
    caller's value and not [{text: true}]. *)
Lemma own_contents_replaces_default :
  options_with_own_contents !! "text" = None
  /\ options_with_own_contents !! "highlights" = None
  /\ exists body,
       snd (searchAndContents sample_constants sample_client "q"
              (Some options_with_own_contents) (always 200 JNull) [])
       = [request_for sample_client "/search" "POST" body]
       /\ body !! "contents" = Some (JObj {[ "highlights" := JBool true ]})
       /\ ~ defaults_to_text body.
Proof.
  split; [reflexivity|]. split; [reflexivity|].
  exists (contents_body "query" "q" (Some options_with_own_contents)).
  split; [reflexivity|]. split; [reflexivity|].
  intros [Hcontents _]. vm_compute in Hcontents. discriminate.
Qed.

(** C1 (amended). For [searchAndContents] and [findSimilarAndContents]:
    when the options are omitted, or supply neither [text] nor
    [highlights] and carry no [contents] property of their own, the one
    request sent has a body with [contents: {text: true}] and with neither
    [text] nor [highlights] at the top level. *)
Theorem contents_defaults_to_text :
  forall K this value options srv log,
    (forall o, options = Some o ->
               o !! "text" = None /\ o !! "highlights" = None
               /\ o !! "contents" = None) ->
    (exists body,
        snd (searchAndContents K this value options srv log)
        = (log ++ [request_for this (ENDPOINT_SEARCH K) "POST" body])%list
        /\ defaults_to_text body)
    /\ (exists body,
          snd (findSimilarAndContents K this value options srv log)
          = (log ++ [request_for this (ENDPOINT_SIMILAR_SEARCH K) "POST"
                       body])%list
          /\ defaults_to_text body).
Proof.
  intros K this value options srv log Hopts.
  assert (Hbody : forall key, key <> "text" -> key <> "highlights" ->
                    defaults_to_text (contents_body key value options)).
  { intros key Hk1 Hk2. split; [|split].
    - rewrite contents_body_contents.
      destruct options as [o|]; simpl.
      + destruct (Hopts o eq_refl) as (Ht & Hh & Hc).
        rewrite Hc. unfold obj_get. rewrite Ht, Hh. reflexivity.
      + rewrite lookup_empty. reflexivity.
    - apply contents_body_no_text. exact Hk1.
    - apply contents_body_no_highlights. exact Hk2. }
  split.
  - eexists. split; [unfold searchAndContents; apply request_sent|].
    apply Hbody; discriminate.
  - eexists. split; [unfold findSimilarAndContents; apply request_sent|].
    apply Hbody; discriminate.
Qed.

Lemma contents_defaults_to_text_witness :
  (exists body,
      snd (searchAndContents sample_constants sample_client "q"
             (Some {[ "numResults" := JNum "3" ]}) (always 200 JNull) [])
      = ([] ++ [request_for sample_client "/search" "POST" body])%list
      /\ defaults_to_text body)
  /\ (exists body,
        snd (findSimilarAndContents sample_constants sample_client "q"
               (Some {[ "numResults" := JNum "3" ]}) (always 200 JNull) [])
        = ([] ++ [request_for sample_client "/findSimilar" "POST" body])%list
        /\ defaults_to_text body).
Proof.
  apply (contents_defaults_to_text sample_constants sample_client "q"
           (Some {[ "numResults" := JNum "3" ]}) (always 200 JNull) []).
  intros o Ho. injection Ho as <-.
  split; [reflexivity|]. split; reflexivity.
Defined.

(** C4, as stated, fails: options that supply [text: true] and also carry
    a [contents] property of their own are well typed ([T] may extend
    [ContentsOptions] by further keys), yet the body's [contents] is the
    caller's value and not the nested [{text: true}]. *)
Lemma own_contents_replaces_nested :
  ContentsOptions_typed text_with_own_contents = true
  /\ supplied_contents text_with_own_contents = {[ "text" := JBool true ]}
  /\ exists body,
       snd (searchAndContents sample_constants sample_client "q"
              (Some text_with_own_contents) (always 200 JNull) [])
       = [request_for sample_client "/search" "POST" body]
       /\ body !! "contents" = Some (JObj {[ "highlights" := JBool true ]})
       /\ ~ nests_supplied_contents text_with_own_contents body.
Proof.
  split; [reflexivity|]. split; [reflexivity|].
  exists (contents_body "query" "q" (Some text_with_own_contents)).
  split; [reflexivity|]. split; [reflexivity|].
  intros [Hcontents _]. vm_compute in Hcontents. discriminate.
Qed.

(** C4 (amended). For the call
    [searchAndContents(query, {text: true, highlights: {numSentences: 1}})],
    and for any call of [searchAndContents] or [findSimilarAndContents]
    whose options supply at least one of [text] and [highlights] (typed as
    declared) and carry no [contents] property of their own, the body nests
    exactly the supplied content keys under [contents] and has neither
    [text] nor [highlights] at the top level. *)
Theorem supplied_contents_are_nested :
  forall K this value o srv log,
    ContentsOptions_typed o = true ->
    supplied_contents o <> ∅ ->
    o !! "contents" = None ->
    (exists body,
        snd (searchAndContents K this value (Some o) srv log)
        = (log ++ [request_for this (ENDPOINT_SEARCH K) "POST" body])%list
        /\ nests_supplied_contents o body)
    /\ (exists body,
          snd (findSimilarAndContents K this value (Some o) srv log)
          = (log ++ [request_for this (ENDPOINT_SIMILAR_SEARCH K) "POST"
                       body])%list
          /\ nests_supplied_contents o body).
Proof.
  intros K this value o srv log Htyped Hsome Hown.
  assert (Hbody : forall key, key <> "text" -> key <> "highlights" ->
                    nests_supplied_contents o
                      (contents_body key value (Some o))).
  { intros key Hk1 Hk2. split; [|split].
    - rewrite contents_body_contents. simpl. rewrite Hown.
      f_equal. apply contents_of_supplied; assumption.
    - apply contents_body_no_text. exact Hk1.
    - apply contents_body_no_highlights. exact Hk2. }
  split.
  - eexists. split; [unfold searchAndContents; apply request_sent|].
    apply Hbody; discriminate.
  - eexists. split; [unfold findSimilarAndContents; apply request_sent|].
    apply Hbody; discriminate.
Qed.

Lemma supplied_contents_are_nested_witness :
  exists body,
    snd (searchAndContents sample_constants sample_client "q"
           (Some sample_contents_options) (always 200 JNull) [])
    = ([] ++ [request_for sample_client "/search" "POST" body])%list
    /\ body !! "contents"
       = Some (JObj {[ "text" := JBool true;
                       "highlights" := JObj {[ "numSentences" := JNum "1" ]} ]})
    /\ body !! "text" = None
    /\ body !! "highlights" = None.
Proof.
  destruct (supplied_contents_are_nested sample_constants sample_client "q"
              sample_contents_options (always 200 JNull) [])
    as [(body & Hsent & Hnest) _].
  - reflexivity.
  - intros Hnone. apply (f_equal (fun m : JsObject => m !! "text")) in Hnone.
    vm_compute in Hnone. discriminate Hnone.
  - reflexivity.
  - exists body. split; [exact Hsent|]. exact Hnest.
Defined.

(** ** Normalising the identifiers *)

Lemma requestIds_of_results (rs : list (string * JsObject)) :
  rs <> [] ->
  requestIds_of (IdsArray (result_with_id <$> rs))
  = Some (JStr <$> (fst <$> rs)).
Proof.
  intros Hne. unfold requestIds_of.
  destruct rs as [|r rs]; [congruence|]. simpl. clear Hne.
  assert (Hmap : forall l : list (string * JsObject),
             mapM (fun result => get_prop result "id") (result_with_id <$> l)
             = Some (JStr <$> (fst <$> l))).
  { induction l as [|x l IH]; [reflexivity|].
    change (result_with_id <$> x :: l)
      with (result_with_id x :: (result_with_id <$> l)).
    simpl. rewrite IH. simpl.
    unfold obj_get. rewrite lookup_insert_eq. reflexivity. }
  apply (Hmap (r :: rs)).
Qed.

Lemma requestIds_of_strings (l : list string) :
  l <> [] -> requestIds_of (IdsArray (JStr <$> l)) = Some (JStr <$> l).
Proof.
  intros Hne. destruct l as [|s l]; [congruence|]. reflexivity.
Qed.

Lemma string_length_nonzero (s : string) : s <> "" -> String.length s <> 0%nat.
Proof. destruct s; simpl; congruence. Qed.

Lemma getContents_sent K this ids options srv log requestIds :
  ids_length ids <> 0%nat ->
  requestIds_of ids = Some requestIds ->
  snd (getContents K this ids options srv log)
  = (log ++ [request_for this (ENDPOINT_CONTENTS K) "POST"
               (spread_opt {[ "ids" := JArr requestIds ]} options)])%list.
Proof.
  intros Hlen Hids. unfold getContents.
  apply Nat.eqb_neq in Hlen. rewrite Hlen, Hids. apply request_sent.
Qed.

Lemma getContents_sends K this ids options srv log (L : list string) :
  (forall o, options = Some o -> o !! "ids" = None) ->
  ids_length ids <> 0%nat ->
  requestIds_of ids = Some (JStr <$> L) ->
  sends_ids K this ids options srv log L.
Proof.
  intros Hopts Hlen Hids. eexists. split.
  - apply getContents_sent; eassumption.
  - destruct (spread_opt_key_plus_options "ids" (JArr (JStr <$> L)) options)
      as (_ & _ & Hkey).
    apply Hkey. destruct options as [o|]; simpl.
    + apply Hopts. reflexivity.
    + apply lookup_empty.
Qed.

(** C2, as stated, fails: options that carry an [ids] property of their
    own are spread over the normalised list, so for the input ["id1"] the
    body's [ids] is the caller's option and not [["id1"]]. *)
Lemma own_ids_replace_normalized :
  ids_length (IdsString "id1") <> 0%nat
  /\ (exists body,
        snd (getContents sample_constants sample_client (IdsString "id1")
               (Some options_with_own_ids) (always 200 JNull) [])
        = [request_for sample_client "/contents" "POST" body]
        /\ body !! "ids" = Some (JArr [JStr "other"]))
  /\ ~ sends_ids sample_constants sample_client (IdsString "id1")
        (Some options_with_own_ids) (always 200 JNull) [] ["id1"].
Proof.
  pose proof (getContents_sent sample_constants sample_client
                (IdsString "id1") (Some options_with_own_ids)
                (always 200 JNull) [] [JStr "id1"]) as Hsent.
  split; [discriminate|]. split.
  - eexists. split; [apply Hsent; [discriminate|reflexivity]|].
    vm_compute. reflexivity.
  - intros (body & Hbody & Hids).
    rewrite Hsent in Hbody by (discriminate || reflexivity).
    apply app_inv_head in Hbody. injection Hbody as <-.
    vm_compute in Hids. discriminate Hids.
Qed.

(** C2 (amended). For every non-empty input and options that carry no
    [ids] property of their own (or are omitted), [getContents] sends one
    request whose body holds under [ids] the flat list of identifier
    strings: a single string [s] gives [[s]], a list of strings is passed
    through unchanged, and a list of result objects gives the list of their
    [id] fields in the same order. *)
Theorem getContents_normalizes_ids :
  forall K this options srv log,
    (forall o, options = Some o -> o !! "ids" = None) ->
    (forall s, s <> "" -> sends_ids K this (IdsString s) options srv log [s])
    /\ (forall l : list string,
          l <> [] ->
          sends_ids K this (IdsArray (JStr <$> l)) options srv log l)
    /\ (forall rs : list (string * JsObject),
          rs <> [] ->
          sends_ids K this (IdsArray (result_with_id <$> rs)) options srv log
            (fst <$> rs)).
Proof.
  intros K this options srv log Hopts. split; [|split].
  - intros s Hs. apply getContents_sends; [exact Hopts| |reflexivity].
    simpl. apply string_length_nonzero. exact Hs.
  - intros l Hl. apply getContents_sends; [exact Hopts| |].
    + simpl. rewrite length_fmap. destruct l; simpl; congruence.
    + apply requestIds_of_strings. exact Hl.
  - intros rs Hrs. apply getContents_sends; [exact Hopts| |].
    + simpl. rewrite length_fmap. destruct rs; simpl; congruence.
    + apply requestIds_of_results. exact Hrs.
Qed.

Lemma getContents_normalizes_ids_witness :
  let sends (ids : IdsArg) (L : list string) :=
    sends_ids sample_constants sample_client ids
      (Some {[ "text" := JBool true ]}) (always 200 JNull) [] L in
  sends (IdsString "id1") ["id1"]
  /\ sends (IdsArray [JStr "id1"; JStr "id2"]) ["id1"; "id2"]
  /\ sends (IdsArray [result_with_id ("id1", {[ "url" := JStr "u1" ]});
                      result_with_id ("id2", {[ "url" := JStr "u2" ]})])
       ["id1"; "id2"].
Proof.
  destruct (getContents_normalizes_ids sample_constants sample_client
              (Some {[ "text" := JBool true ]}) (always 200 JNull) [])
    as (Hs & Hl & Hr).
  - intros o Ho. injection Ho as <-. reflexivity.
  - intros sends. split; [|split].
    + apply (Hs "id1"). discriminate.
    + apply (Hl ["id1"; "id2"]). discriminate.
    + apply (Hr [("id1", {[ "url" := JStr "u1" ]});
                 ("id2", {[ "url" := JStr "u2" ]})]). discriminate.
Defined.

(** ** Construction *)

Lemma new_Exa_truthy K env legal apiKey baseURL_arg key srv log :
  str_or apiKey (env !! EXASEARCH_API_KEY) = Some key ->
  key <> "" ->
  header_values_legal legal K key = true ->
  new_Exa K env legal apiKey baseURL_arg srv log
  = (Normal {| baseURL := default (BASE_URL K) baseURL_arg;
               headers := header_set K key |}, log).
Proof.
  intros Hkey Hne Hlegal. unfold new_Exa. rewrite Hkey. simpl.
  destruct key as [|a key]; [congruence|]. simpl.
  unfold mbind, Net_bind, new_Headers.
  change (forallb _ _) with (header_values_legal legal K (String a key)).
  rewrite Hlegal. reflexivity.
Qed.

Lemma new_Exa_illegal K env legal apiKey baseURL_arg key srv log :
  str_or apiKey (env !! EXASEARCH_API_KEY) = Some key ->
  key <> "" ->
  header_values_legal legal K key = false ->
  new_Exa K env legal apiKey baseURL_arg srv log = (Abrupt JsTypeError, log).
Proof.
  intros Hkey Hne Hlegal. unfold new_Exa. rewrite Hkey. simpl.
  destruct key as [|a key]; [congruence|]. simpl.
  unfold mbind, Net_bind, new_Headers.
  change (forallb _ _) with (header_values_legal legal K (String a key)).
  rewrite Hlegal. reflexivity.
Qed.

Lemma new_Exa_falsy K env legal apiKey baseURL_arg srv log :
  str_falsy (str_or apiKey (env !! EXASEARCH_API_KEY)) = true ->
  new_Exa K env legal apiKey baseURL_arg srv log
  = (Abrupt (JsError API_KEY_MISSING), log).
Proof. intros Hf. unfold new_Exa. rewrite Hf. reflexivity. Qed.

Lemma str_or_source apiKey (fallback : option string) key :
  key <> "" ->
  apiKey = Some key \/ (str_falsy apiKey = true /\ fallback = Some key) ->
  str_or apiKey fallback = Some key.
Proof.
  intros Hne [->|[Hf Hfb]].
  - simpl. destruct key; [congruence|reflexivity].
  - destruct apiKey as [s|]; simpl in *; [|exact Hfb].
    destruct (negb (String.eqb s "")); [discriminate|exact Hfb].
Qed.

(** Every request a sequence of calls adds to the log carries the client's
    headers. *)
Lemma session_log_headers K this srv calls :
  forall log,
  exists new,
    session_log K this srv log calls = (log ++ new)%list
    /\ Forall (fun r => req_headers r = headers this) new.
Proof.
  induction calls as [|c calls IH]; intros log.
  - exists []. split; [symmetry; apply app_nil_r|constructor].
  - unfold session_log in *. simpl.
    destruct (invoke_log K this c srv log) as [Hno|(ep & b & Hlog & _)].
    + rewrite Hno. apply IH.
    + rewrite Hlog.
      destruct (IH (log ++ [request_for this ep "POST" b])%list)
        as (new & Hnew & Hall).
      exists (request_for this ep "POST" b :: new). split.
      * rewrite Hnew, <- app_assoc. reflexivity.
      * constructor; [reflexivity|exact Hall].
Qed.

(** C6, as stated, fails: an [apiKey] argument is present, but it is the
    empty string and the environment variable is unset, and construction
    throws the configuration error. *)
Lemma empty_key_argument_is_rejected :
  is_Some (Some "" : option string)
  /\ new_Exa sample_constants ∅ printable_header_value (Some "") None
       (always 200 JNull) []
     = (Abrupt (JsError API_KEY_MISSING), []).
Proof. split; [eexists; reflexivity|reflexivity]. Qed.

(** A non-empty key is not enough either: one that [new Headers] does not
    accept as a header value makes the constructor throw a TypeError. *)
Example key_with_line_break_is_rejected :
  new_Exa sample_constants ∅ printable_header_value
    (Some key_with_line_break) None (always 200 JNull) []
  = (Abrupt JsTypeError, []).
Proof. vm_compute. reflexivity. Qed.

(** C6 (amended). With no [apiKey] argument and the environment variable
    unset, construction throws the configuration error and no request is
    made.  When the argument is a non-empty string, or else the environment
    variable is one, and [new Headers] accepts that credential and the two
    fixed values, construction succeeds with the header set made of the
    credential, the fixed content type and the fixed user agent, and every
    request made by any later sequence of calls on the client carries
    exactly these headers; when [new Headers] does not accept them,
    construction throws a TypeError and no request is made. *)
Theorem constructor_fixes_headers :
  forall K env legal baseURL_arg srv log,
    (env !! EXASEARCH_API_KEY = None ->
     new_Exa K env legal None baseURL_arg srv log
     = (Abrupt (JsError API_KEY_MISSING), log))
    /\ (forall apiKey key,
          key <> "" ->
          apiKey = Some key
          \/ (str_falsy apiKey = true /\ env !! EXASEARCH_API_KEY = Some key) ->
          (header_values_legal legal K key = true ->
           exists this,
             new_Exa K env legal apiKey baseURL_arg srv log
             = (Normal this, log)
             /\ headers this = header_set K key
             /\ forall srv' log' calls,
                  exists new,
                    session_log K this srv' log' calls = (log' ++ new)%list
                    /\ Forall (fun r => req_headers r = header_set K key)
                         new)
          /\ (header_values_legal legal K key = false ->
              new_Exa K env legal apiKey baseURL_arg srv log
              = (Abrupt JsTypeError, log))).
Proof.
  intros K env legal baseURL_arg srv log. split.
  - intros Henv. apply new_Exa_falsy. simpl. rewrite Henv. reflexivity.
  - intros apiKey key Hne Hsrc.
    pose proof (str_or_source apiKey _ key Hne Hsrc) as Hkey.
    split.
    + intros Hlegal. eexists.
      split; [apply new_Exa_truthy; eassumption|].
      split; [reflexivity|].
      intros srv' log' calls. apply session_log_headers.
    + intros Hillegal. apply new_Exa_illegal with (key := key); assumption.
Qed.

Lemma constructor_fixes_headers_witness :
  new_Exa sample_constants ∅ printable_header_value None None
    (always 200 JNull) []
  = (Abrupt (JsError API_KEY_MISSING), [])
  /\ (exists this,
        new_Exa sample_constants (env_with_key "k") printable_header_value
          None None (always 200 JNull) []
        = (Normal this, [])
        /\ headers this = header_set sample_constants "k")
  /\ new_Exa sample_constants ∅ printable_header_value
       (Some key_with_line_break) None (always 200 JNull) []
     = (Abrupt JsTypeError, []).
Proof.
  split; [|split].
  - apply (constructor_fixes_headers sample_constants ∅
             printable_header_value None (always 200 JNull) []).
    reflexivity.
  - destruct (constructor_fixes_headers sample_constants (env_with_key "k")
                printable_header_value None (always 200 JNull) [])
      as [_ Hsome].
    destruct (Hsome None "k") as [Hlegal _].
    + discriminate.
    + right. split; reflexivity.
    + destruct Hlegal as (this & Hnew & Hheaders & _); [reflexivity|].
      exists this. split; assumption.
  - destruct (constructor_fixes_headers sample_constants ∅
                printable_header_value None (always 200 JNull) [])
      as [_ Hsome].
    destruct (Hsome (Some key_with_line_break) key_with_line_break)
      as [_ Hillegal].
    + discriminate.
    + left. reflexivity.
    + apply Hillegal. reflexivity.
Defined.

(** C10. [new Exa("")] behaves exactly like [new Exa()], whatever the
    environment: the credential is taken from the environment variable, so
    any client that results carries that variable's value, and one does
    result when the value is a non-empty string that [new Headers] accepts;
    and when the variable is unset the constructor throws the configuration
    error although an argument was supplied. *)
Theorem empty_key_argument_is_like_omitted :
  forall K env legal baseURL_arg srv log,
    new_Exa K env legal (Some "") baseURL_arg srv log
    = new_Exa K env legal None baseURL_arg srv log
    /\ (forall this,
          fst (new_Exa K env legal (Some "") baseURL_arg srv log)
          = Normal this ->
          exists key,
            env !! EXASEARCH_API_KEY = Some key
            /\ headers this = header_set K key)
    /\ (forall key,
          env !! EXASEARCH_API_KEY = Some key ->
          key <> "" ->
          header_values_legal legal K key = true ->
          new_Exa K env legal (Some "") baseURL_arg srv log
          = (Normal {| baseURL := default (BASE_URL K) baseURL_arg;
                       headers := header_set K key |}, log))
    /\ (env !! EXASEARCH_API_KEY = None ->
        new_Exa K env legal (Some "") baseURL_arg srv log
        = (Abrupt (JsError API_KEY_MISSING), log)).
Proof.
  intros K env legal baseURL_arg srv log.
  split; [reflexivity|]. split; [|split].
  - intros this Hthis.
    destruct (env !! EXASEARCH_API_KEY) as [key|] eqn:Henv.
    + exists key. split; [reflexivity|].
      destruct (decide (key = "")) as [->|Hne].
      * rewrite new_Exa_falsy in Hthis by (simpl; rewrite Henv; reflexivity).
        discriminate Hthis.
      * destruct (header_values_legal legal K key) eqn:Hlegal.
        -- rewrite (new_Exa_truthy K env legal (Some "") baseURL_arg key)
             in Hthis by assumption.
           injection Hthis as <-. reflexivity.
        -- rewrite (new_Exa_illegal K env legal (Some "") baseURL_arg key)
             in Hthis by assumption.
           discriminate Hthis.
    + rewrite new_Exa_falsy in Hthis by (simpl; rewrite Henv; reflexivity).
      discriminate Hthis.
  - intros key Henv Hne Hlegal.
    apply new_Exa_truthy; [exact Henv|exact Hne|exact Hlegal].
  - intros Henv. apply new_Exa_falsy. simpl. rewrite Henv. reflexivity.
Qed.

Lemma empty_key_argument_is_like_omitted_witness :
  new_Exa sample_constants (env_with_key "k") printable_header_value
    (Some "") None (always 200 JNull) []
  = (Normal {| baseURL := "https://api.exa.ai";
               headers := header_set sample_constants "k" |}, [])
  /\ (exists key,
        env_with_key "k" !! EXASEARCH_API_KEY = Some key
        /\ headers sample_client = header_set sample_constants key)
  /\ new_Exa sample_constants ∅ printable_header_value (Some "") None
       (always 200 JNull) []
     = (Abrupt (JsError API_KEY_MISSING), []).
Proof.
  pose proof (empty_key_argument_is_like_omitted sample_constants
                (env_with_key "k") printable_header_value None
                (always 200 JNull) []) as (_ & Hany & Hsome & _).
  split; [|split].
  - apply Hsome; [reflexivity|discriminate|reflexivity].
  - apply (Hany sample_client). reflexivity.
  - apply (empty_key_argument_is_like_omitted sample_constants ∅
             printable_header_value None (always 200 JNull) []).
    reflexivity.
Defined.

(** ** One request per call *)

(** Every call either throws before the network or is one [request] to
    its own endpoint; only [getContents] can throw first. *)
Lemma invoke_request K this c :
  (exists body,
      invoke K this c
      = request this (endpoint_of K c) "POST" (Some (JObj body)))
  \/ (exists ids o e,
        c = CallGetContents ids o
        /\ (ids_length ids = 0%nat \/ requestIds_of ids = None)
        /\ forall srv log, invoke K this c srv log = (Abrupt e, log)).
Proof.
  destruct c as [q o|q o|u o|u o|ids o]; simpl;
    try (left; eexists; reflexivity).
  unfold getContents.
  destruct (Nat.eqb (ids_length ids) 0) eqn:Hlen.
  - right. exists ids, o. eexists. split; [reflexivity|]. split.
    + left. apply Nat.eqb_eq. exact Hlen.
    + reflexivity.
  - destruct (requestIds_of ids) as [l|] eqn:Hids.
    + left. eexists. reflexivity.
    + right. exists ids, o. eexists. split; [reflexivity|]. split.
      * right. exact Hids.
      * reflexivity.
Qed.

(** The request found in the log is the one the call handed to
    [request]. *)
Lemma invoke_sent K this c srv log sent :
  snd (invoke K this c srv log) = (log ++ [sent])%list ->
  exists body,
    sent = request_for this (endpoint_of K c) "POST" body
    /\ invoke K this c
       = request this (endpoint_of K c) "POST" (Some (JObj body)).
Proof.
  intros Hsent.
  destruct (invoke_request K this c) as [[b Hreq]|(ids & o & e & _ & _ & He)].
  - exists b. split; [|exact Hreq].
    rewrite Hreq, request_sent in Hsent.
    apply app_inv_head in Hsent. injection Hsent as <-. reflexivity.
  - rewrite He in Hsent. destruct (app_singleton_neq _ _ Hsent).
Qed.

(** X1. Every call sends at most one request and never retries: either
    exactly one request is added to the log, a POST to the client's base
    URL followed by the operation's endpoint, with the client's headers and
    an object as body; or the call is a [getContents] whose input is empty
    or holds an element no [id] can be read from, and it throws with the
    log untouched. *)
Theorem call_sends_one_post_or_none :
  forall K this c srv log,
    (exists body,
        snd (invoke K this c srv log)
        = (log ++ [{| req_url := baseURL this ++ endpoint_of K c;
                      req_method := "POST";
                      req_headers := headers this;
                      req_body := Some (JObj body) |}])%list)
    \/ (exists ids o e,
          c = CallGetContents ids o
          /\ (ids_length ids = 0%nat \/ requestIds_of ids = None)
          /\ invoke K this c srv log = (Abrupt e, log)).
Proof.
  intros K this c srv log.
  destruct (invoke_request K this c) as [[b Hreq]|(ids & o & e & Hc & Hw & He)].
  - left. exists b. rewrite Hreq. apply request_sent.
  - right. exists ids, o, e. split; [exact Hc|]. split; [exact Hw|]. apply He.
Qed.

(** ** What a call resolves to *)

Section Outcomes.

Variables (K : Constants) (this : Exa) (c : Call).
Variables (srv : Server) (log : list HttpRequest) (sent : HttpRequest).

Hypothesis Hsent : snd (invoke K this c srv log) = (log ++ [sent])%list.

Lemma invoke_transport_failure reason :
  srv log sent = FetchFailed reason ->
  fst (invoke K this c srv log) = Abrupt (TransportError reason).
Proof.
  intros Hsrv. destruct (invoke_sent _ _ _ _ _ _ Hsent) as (b & -> & Hreq).
  rewrite Hreq. apply request_transport_failure. exact Hsrv.
Qed.

Lemma invoke_success resp v :
  srv log sent = FetchResponse resp ->
  resp_ok resp = true ->
  resp_json resp = Some v ->
  fst (invoke K this c srv log) = Normal v.
Proof.
  intros Hsrv Hok Hjson.
  destruct (invoke_sent _ _ _ _ _ _ Hsent) as (b & -> & Hreq).
  rewrite Hreq. eapply request_success; eassumption.
Qed.

Lemma invoke_unparseable resp :
  srv log sent = FetchResponse resp ->
  resp_json resp = None ->
  fst (invoke K this c srv log) = Abrupt JsonSyntaxError.
Proof.
  intros Hsrv Hjson.
  destruct (invoke_sent _ _ _ _ _ _ Hsent) as (b & -> & Hreq).
  rewrite Hreq. clear Hreq Hsent.
  unfold request, request_for, mbind, Net_bind, fetch in *. simpl in *.
  rewrite Hsrv. simpl. unfold response_json. rewrite Hjson.
  destruct (resp_ok resp); reflexivity.
Qed.

Lemma invoke_failure resp v :
  srv log sent = FetchResponse resp ->
  resp_ok resp = false ->
  resp_json resp = Some v ->
  fst (invoke K this c srv log)
  = match get_prop v "error" with
    | None => Abrupt JsTypeError
    | Some message =>
        match ToString message with
        | None => Abrupt JsTypeError
        | Some text =>
            Abrupt (JsError ("Request failed with status "
                               ++ pretty (resp_status resp) ++ ". " ++ text))
        end
    end.
Proof.
  intros Hsrv Hok Hjson.
  destruct (invoke_sent _ _ _ _ _ _ Hsent) as (b & -> & Hreq).
  rewrite Hreq. clear Hreq Hsent.
  unfold request, request_for, mbind, Net_bind, fetch in *. simpl in *.
  rewrite Hsrv. simpl. rewrite Hok. simpl.
  unfold response_json. rewrite Hjson. simpl.
  unfold read_prop. destruct (get_prop v "error") as [message|]; simpl;
    [|reflexivity].
  unfold to_string. destruct (ToString message); reflexivity.
Qed.

End Outcomes.

(** X2. For every operation: when the transport fails the request the call
    sent, the call rejects with that very failure; nothing is wrapped,
    retried or sent again. *)
Theorem transport_failure_passes_through :
  forall K this c srv log sent reason,
    snd (invoke K this c srv log) = (log ++ [sent])%list ->
    srv log sent = FetchFailed reason ->
    invoke K this c srv log
    = (Abrupt (TransportError reason), (log ++ [sent])%list).
Proof.
  intros K this c srv log sent reason Hsent Hsrv.
  rewrite (surjective_pairing (invoke K this c srv log)).
  rewrite Hsent.
  rewrite (invoke_transport_failure K this c srv log sent Hsent reason Hsrv).
  reflexivity.
Qed.

Lemma transport_failure_passes_through_witness :
  getContents sample_constants sample_client (IdsString "id1") None
    (offline "ECONNREFUSED") []
  = (Abrupt (TransportError "ECONNREFUSED"),
     ([] ++ [request_for sample_client "/contents" "POST"
               {[ "ids" := JArr [JStr "id1"] ]}])%list).
Proof.
  apply (transport_failure_passes_through sample_constants sample_client
           (CallGetContents (IdsString "id1") None)
           (offline "ECONNREFUSED") []); reflexivity.
Defined.

(** X3. For every operation: a response whose body is not JSON makes the
    call reject with the parser's syntax error, whatever the status; for a
    non-success status the status code is then not reported. *)
Theorem unparseable_body_is_syntax_error :
  forall K this c srv log sent resp,
    snd (invoke K this c srv log) = (log ++ [sent])%list ->
    srv log sent = FetchResponse resp ->
    resp_json resp = None ->
    fst (invoke K this c srv log) = Abrupt JsonSyntaxError.
Proof.
  intros K this c srv log sent resp Hsent Hsrv Hjson.
  exact (invoke_unparseable K this c srv log sent Hsent resp Hsrv Hjson).
Qed.

Lemma unparseable_body_is_syntax_error_witness :
  fst (findSimilar sample_constants sample_client "https://example.com" None
         (always_unparseable 502) [])
  = Abrupt JsonSyntaxError.
Proof.
  apply (unparseable_body_is_syntax_error sample_constants sample_client
           (CallFindSimilar "https://example.com" None)
           (always_unparseable 502) []
           (request_for sample_client "/findSimilar" "POST"
              {[ "url" := JStr "https://example.com" ]})
           {| resp_status := 502; resp_json := None |});
    reflexivity.
Defined.

(** X4. For every operation and a non-success response whose JSON body has
    no [error] field to read: a body that is [null] makes the call reject
    with a TypeError; any other body (an object without [error], a string,
    a number, a boolean, an array) gives the request error
    "Request failed with status <status>. undefined". *)
Theorem failure_without_error_field :
  forall K this c srv log sent resp v,
    snd (invoke K this c srv log) = (log ++ [sent])%list ->
    srv log sent = FetchResponse resp ->
    resp_ok resp = false ->
    resp_json resp = Some v ->
    (nullish v = true -> fst (invoke K this c srv log) = Abrupt JsTypeError)
    /\ (nullish v = false ->
        (forall o, v = JObj o -> o !! "error" = None) ->
        fst (invoke K this c srv log)
        = Abrupt (JsError ("Request failed with status "
                             ++ pretty (resp_status resp) ++ ". undefined"))).
Proof.
  intros K this c srv log sent resp v Hsent Hsrv Hok Hjson.
  rewrite (invoke_failure K this c srv log sent Hsent resp v Hsrv Hok Hjson).
  split.
  - intros Hnull. destruct v; simpl in Hnull; try discriminate; reflexivity.
  - intros Hnull Hobj.
    destruct v as [| |b|n|s|l|o]; simpl in Hnull; try discriminate;
      try reflexivity.
    simpl. unfold obj_get. rewrite (Hobj o eq_refl). reflexivity.
Qed.

Lemma failure_without_error_field_witness :
  fst (search sample_constants sample_client "q" None (always 500 JNull) [])
  = Abrupt JsTypeError
  /\ fst (search sample_constants sample_client "q" None
            (always 404 (JObj {[ "message" := JStr "not found" ]})) [])
     = Abrupt (JsError "Request failed with status 404. undefined").
Proof.
  split.
  - apply (failure_without_error_field sample_constants sample_client
             (CallSearch "q" None) (always 500 JNull) []
             (request_for sample_client "/search" "POST"
                {[ "query" := JStr "q" ]})
             {| resp_status := 500; resp_json := Some JNull |} JNull);
      reflexivity.
  - apply (failure_without_error_field sample_constants sample_client
             (CallSearch "q" None)
             (always 404 (JObj {[ "message" := JStr "not found" ]})) []
             (request_for sample_client "/search" "POST"
                {[ "query" := JStr "q" ]})
             {| resp_status := 404;
                resp_json := Some (JObj {[ "message" := JStr "not found" ]}) |}
             (JObj {[ "message" := JStr "not found" ]}));
      try reflexivity.
    intros o Ho. injection Ho as <-. reflexivity.
Defined.

(** X5. For every operation, not only [search]: a response with a status in
    200-299 and a JSON body resolves the call to that parsed body as it is,
    after exactly one request. *)
Theorem success_body_is_returned_by_every_operation :
  forall K this c srv log sent resp v,
    snd (invoke K this c srv log) = (log ++ [sent])%list ->
    srv log sent = FetchResponse resp ->
    200 <= resp_status resp <= 299 ->
    resp_json resp = Some v ->
    invoke K this c srv log = (Normal v, (log ++ [sent])%list).
Proof.
  intros K this c srv log sent resp v Hsent Hsrv [Hlo Hhi] Hjson.
  rewrite (surjective_pairing (invoke K this c srv log)), Hsent.
  rewrite (invoke_success K this c srv log sent Hsent resp v Hsrv);
    [reflexivity| |exact Hjson].
  unfold resp_ok. apply andb_true_intro. split; apply Z.leb_le; assumption.
Qed.

Lemma success_body_is_returned_by_every_operation_witness :
  searchAndContents sample_constants sample_client "q" None
    (always 200 sample_results) []
  = (Normal sample_results,
     ([] ++ [request_for sample_client "/search" "POST"
               (contents_body "query" "q" None)])%list).
Proof.
  apply (success_body_is_returned_by_every_operation sample_constants
           sample_client (CallSearchAndContents "q" None)
           (always 200 sample_results) []
           (request_for sample_client "/search" "POST"
              (contents_body "query" "q" None))
           {| resp_status := 200; resp_json := Some sample_results |});
    [reflexivity | reflexivity | simpl; lia | reflexivity].
Defined.

(** ** Construction, continued *)

Lemma str_falsy_or a b :
  str_falsy (str_or a b) = true
  <-> (a = None \/ a = Some "") /\ (b = None \/ b = Some "").
Proof.
  destruct a as [[|x s]|], b as [[|y t]|]; simpl; split;
    try discriminate; try (intros [[H|H] [H'|H']]; discriminate);
    intros _; split; (left; reflexivity) || (right; reflexivity).
Qed.

Lemma str_or_truthy a b :
  str_falsy (str_or a b) = false ->
  exists key,
    key <> "" /\ str_or a b = Some key /\ (a = Some key \/ b = Some key).
Proof.
  destruct a as [[|x s]|], b as [[|y t]|]; simpl; try discriminate; intros _;
    eexists; (split; [|split; [reflexivity|]]);
    try discriminate; (left; reflexivity) || (right; reflexivity).
Qed.

(** X6. The constructor never touches the network, and it fails exactly
    when both credential sources are missing or empty: the argument is
    absent or the empty string and so is the environment variable.  When
    it succeeds, the client's base URL is the argument if one was given
    (even the empty string) and the default otherwise, and its API-key
    header is a non-empty string taken from the argument or the
    environment. *)
Theorem constructor_fails_iff_no_credential :
  forall K env legal apiKey baseURL_arg srv log,
    snd (new_Exa K env legal apiKey baseURL_arg srv log) = log
    /\ (fst (new_Exa K env legal apiKey baseURL_arg srv log)
        = Abrupt (JsError API_KEY_MISSING)
        <-> (apiKey = None \/ apiKey = Some "")
            /\ (env !! EXASEARCH_API_KEY = None
                \/ env !! EXASEARCH_API_KEY = Some ""))
    /\ (forall this,
          fst (new_Exa K env legal apiKey baseURL_arg srv log)
          = Normal this ->
          baseURL this = default (BASE_URL K) baseURL_arg
          /\ exists key,
               key <> ""
               /\ headers this = header_set K key
               /\ (apiKey = Some key \/ env !! EXASEARCH_API_KEY = Some key)).
Proof.
  intros K env legal apiKey baseURL_arg srv log.
  destruct (str_falsy (str_or apiKey (env !! EXASEARCH_API_KEY))) eqn:Hf.
  - rewrite new_Exa_falsy by exact Hf. simpl.
    split; [reflexivity|]. split; [|discriminate].
    split; [intros _; apply str_falsy_or; exact Hf|reflexivity].
  - destruct (str_or_truthy _ _ Hf) as (key & Hne & Hkey & Hsrc).
    assert (Hsome : ~ ((apiKey = None \/ apiKey = Some "")
                       /\ (env !! EXASEARCH_API_KEY = None
                           \/ env !! EXASEARCH_API_KEY = Some ""))).
    { intros Hnone. apply str_falsy_or in Hnone. congruence. }
    destruct (header_values_legal legal K key) eqn:Hlegal.
    + rewrite (new_Exa_truthy K env legal apiKey baseURL_arg key)
        by assumption.
      simpl. split; [reflexivity|]. split.
      * split; [discriminate|]. intros Hnone. destruct (Hsome Hnone).
      * intros this Hthis. injection Hthis as <-. split; [reflexivity|].
        exists key. split; [exact Hne|]. split; [reflexivity|exact Hsrc].
    + rewrite (new_Exa_illegal K env legal apiKey baseURL_arg key)
        by assumption.
      simpl. split; [reflexivity|]. split; [|discriminate].
      split; [discriminate|]. intros Hnone. destruct (Hsome Hnone).
Qed.

Lemma constructor_fails_iff_no_credential_witness :
  fst (new_Exa sample_constants (env_with_key "") printable_header_value
         (Some "") None (always 200 JNull) [])
  = Abrupt (JsError API_KEY_MISSING)
  /\ baseURL {| baseURL := ""; headers := header_set sample_constants "k" |}
     = default (BASE_URL sample_constants) (Some "").
Proof.
  split.
  - apply (constructor_fails_iff_no_credential sample_constants
             (env_with_key "") printable_header_value (Some "") None
             (always 200 JNull) []).
    split; right; reflexivity.
  - apply (constructor_fails_iff_no_credential sample_constants ∅
             printable_header_value (Some "k") (Some "")
             (always 200 JNull) []).
    reflexivity.
Defined.

(** X7. Constructing a client with a non-empty key and then making any
    call sends at most one request; it goes to the given base URL (the
    default one when none was given) followed by the operation's endpoint
    and carries the API-key header with that key, the fixed content type
    and the fixed user agent, whatever the environment holds. *)
Theorem constructed_client_posts_to_base_url :
  forall K env legal key baseURL_arg c srv log,
    key <> "" ->
    let run :=
      (new_Exa K env legal (Some key) baseURL_arg
       ≫= fun this => invoke K this c) srv log in
    snd run = log
    \/ exists body,
         snd run
         = (log ++ [{| req_url := default (BASE_URL K) baseURL_arg
                                    ++ endpoint_of K c;
                       req_method := "POST";
                       req_headers := header_set K key;
                       req_body := Some (JObj body) |}])%list.
Proof.
  intros K env legal key baseURL_arg c srv log Hkey run. subst run.
  assert (Hsrc : str_or (Some key) (env !! EXASEARCH_API_KEY) = Some key)
    by (apply str_or_source; [exact Hkey|left; reflexivity]).
  unfold mbind, Net_bind.
  destruct (header_values_legal legal K key) eqn:Hlegal.
  - rewrite (new_Exa_truthy K env legal (Some key) baseURL_arg key srv log)
      by assumption.
    set (this := {| baseURL := default (BASE_URL K) baseURL_arg;
                    headers := header_set K key |}).
    destruct (invoke_request K this c)
      as [[b Hreq]|(ids & o & e & _ & _ & He)].
    + right. exists b. rewrite Hreq. apply request_sent.
    + left. rewrite He. reflexivity.
  - rewrite (new_Exa_illegal K env legal (Some key) baseURL_arg key srv log)
      by assumption.
    left. reflexivity.
Qed.

Lemma constructed_client_posts_to_base_url_witness :
  let run :=
    (new_Exa sample_constants (env_with_key "other") printable_header_value
       (Some "k") (Some "http://localhost:8080")
     ≫= fun this => invoke sample_constants this (CallSearch "q" None))
      (always 200 JNull) [] in
  snd run = []
  \/ exists body,
       snd run
       = ([] ++ [{| req_url := "http://localhost:8080/search";
                    req_method := "POST";
                    req_headers := header_set sample_constants "k";
                    req_body := Some (JObj body) |}])%list.
Proof.
  apply (constructed_client_posts_to_base_url sample_constants
           (env_with_key "other") printable_header_value "k"
           (Some "http://localhost:8080")
           (CallSearch "q" None) (always 200 JNull) []).
  discriminate.
Defined.

(** ** The "and contents" bodies as a whole *)

Lemma contents_body_fields key value options :
  key <> "text" -> key <> "highlights" -> key <> "contents" ->
  and_contents_fields key value options (contents_body key value options).
Proof.
  intros Hk1 Hk2 Hk3. unfold and_contents_fields. simpl.
  split; [|split; [|split; [|split]]].
  - unfold contents_body, spread.
    rewrite dom_union_L, dom_insert_L, dom_singleton_L, !dom_delete_L.
    apply set_eq. intros k.
    rewrite !elem_of_union, !elem_of_difference, !elem_of_union,
      !elem_of_singleton.
    tauto.
  - intros k v Hkt Hkh Hk. unfold contents_body, spread.
    apply lookup_union_Some_l.
    rewrite !lookup_delete_ne by congruence. exact Hk.
  - apply contents_body_no_text. exact Hk1.
  - apply contents_body_no_highlights. exact Hk2.
  - intros Hnone. unfold contents_body, spread.
    rewrite lookup_union_r.
    + rewrite lookup_insert_ne by congruence. apply lookup_singleton_eq.
    + rewrite !lookup_delete_ne by congruence. exact Hnone.
Qed.

(** X8. For [searchAndContents] and [findSimilarAndContents] and any
    options, whatever their values: the body's field set is the mandatory
    key, [contents], and the option fields other than [text] and
    [highlights]; those other fields are carried unchanged; [text] and
    [highlights] never appear at the top level; and the mandatory key holds
    the argument unless the options set that key themselves. *)
Theorem and_contents_body_is_key_contents_and_rest :
  forall K this value options srv log,
    (exists body,
        snd (searchAndContents K this value options srv log)
        = (log ++ [request_for this (ENDPOINT_SEARCH K) "POST" body])%list
        /\ and_contents_fields "query" value options body)
    /\ (exists body,
          snd (findSimilarAndContents K this value options srv log)
          = (log ++ [request_for this (ENDPOINT_SIMILAR_SEARCH K) "POST"
                       body])%list
          /\ and_contents_fields "url" value options body).
Proof.
  intros K this value options srv log. split.
  - eexists. split; [unfold searchAndContents; apply request_sent|].
    apply contents_body_fields; discriminate.
  - eexists. split; [unfold findSimilarAndContents; apply request_sent|].
    apply contents_body_fields; discriminate.
Qed.

Lemma and_contents_body_is_key_contents_and_rest_witness :
  exists body,
    snd (searchAndContents sample_constants sample_client "q"
           (Some {[ "text" := JBool false; "numResults" := JNum "3" ]})
           (always 200 JNull) [])
    = ([] ++ [request_for sample_client "/search" "POST" body])%list
    /\ body !! "numResults" = Some (JNum "3")
    /\ body !! "query" = Some (JStr "q").
Proof.
  destruct (and_contents_body_is_key_contents_and_rest sample_constants
              sample_client "q"
              (Some {[ "text" := JBool false; "numResults" := JNum "3" ]})
              (always 200 JNull) [])
    as [(body & Hsent & _ & Hrest & _ & _ & Hkey) _].
  exists body. split; [exact Hsent|]. split.
  - apply Hrest; [discriminate|discriminate|reflexivity].
  - apply Hkey. reflexivity.
Defined.

Lemma contents_of_request (o : JsObject) :
  exists m,
    contents_of (obj_get o "text") (obj_get o "highlights") = JObj m
    /\ contents_request o m.
Proof.
  unfold contents_of, contents_request, spread, obj_get.
  destruct (o !! "text") as [t|] eqn:Ht, (o !! "highlights") as [h|] eqn:Hh;
    simpl;
    repeat match goal with
           | |- context [truthy ?v] =>
               let E := fresh "E" in destruct (truthy v) eqn:E; simpl
           end;
    (eexists; split; [reflexivity|]); split;
    try (intros Hm; apply (f_equal (fun m : JsObject => m !! "text")) in Hm;
         vm_compute in Hm; discriminate Hm);
    try (intros Hm;
         apply (f_equal (fun m : JsObject => m !! "highlights")) in Hm;
         vm_compute in Hm; discriminate Hm);
    intros k v Hk;
    repeat (rewrite ?lookup_union_Some_raw, ?lookup_empty,
              ?lookup_singleton_Some in Hk);
    intuition (subst; auto; try discriminate).
Qed.

(** X9. For both "and contents" operations and options without a
    [contents] field of their own, whatever the values of [text] and
    [highlights]: the body's [contents] is an object that is never empty,
    has no keys besides [text] and [highlights], and holds only truthy
    values, each one the caller's own or the default [text: true].  A
    falsy [text] or [highlights] (such as [false], [null] or [0]) is
    dropped like a missing one. *)
Theorem contents_is_a_nonempty_request :
  forall K this value o srv log,
    o !! "contents" = None ->
    (exists body m,
        snd (searchAndContents K this value (Some o) srv log)
        = (log ++ [request_for this (ENDPOINT_SEARCH K) "POST" body])%list
        /\ body !! "contents" = Some (JObj m)
        /\ contents_request o m)
    /\ (exists body m,
          snd (findSimilarAndContents K this value (Some o) srv log)
          = (log ++ [request_for this (ENDPOINT_SIMILAR_SEARCH K) "POST"
                       body])%list
          /\ body !! "contents" = Some (JObj m)
          /\ contents_request o m).
Proof.
  intros K this value o srv log Hown.
  destruct (contents_of_request o) as (m & Hm & Hreq).
  split.
  - exists (contents_body "query" value (Some o)), m.
    split; [unfold searchAndContents; apply request_sent|].
    split; [|exact Hreq].
    rewrite contents_body_contents. simpl. rewrite Hown, Hm. reflexivity.
  - exists (contents_body "url" value (Some o)), m.
    split; [unfold findSimilarAndContents; apply request_sent|].
    split; [|exact Hreq].
    rewrite contents_body_contents. simpl. rewrite Hown, Hm. reflexivity.
Qed.

Lemma contents_is_a_nonempty_request_witness :
  exists body m,
    snd (searchAndContents sample_constants sample_client "q"
           (Some {[ "text" := JBool false; "highlights" := JNull ]})
           (always 200 JNull) [])
    = ([] ++ [request_for sample_client "/search" "POST" body])%list
    /\ body !! "contents" = Some (JObj m)
    /\ contents_request {[ "text" := JBool false; "highlights" := JNull ]} m.
Proof.
  apply (contents_is_a_nonempty_request sample_constants sample_client "q"
           {[ "text" := JBool false; "highlights" := JNull ]}
           (always 200 JNull) []).
  reflexivity.
Defined.

Lemma contents_body_as_spread key value options :
  key <> "contents" ->
  default (∅ : JsObject) options !! "contents" = None ->
  contents_body key value options
  = spread_opt {[ key := JStr value ]} (Some (with_contents options)).
Proof.
  intros Hkey Hown. unfold contents_body, with_contents, spread_opt, spread.
  apply map_eq. intros k. rewrite !lookup_union.
  destruct (decide (k = "contents")) as [->|Hk].
  - rewrite !lookup_insert_eq, !lookup_delete_ne by discriminate.
    rewrite Hown, lookup_singleton_ne by exact Hkey. reflexivity.
  - rewrite !lookup_insert_ne by congruence. reflexivity.
Qed.

(** X10. The "and contents" operations are the plain ones with one more
    option: when the options carry no [contents] field of their own (or are
    omitted), [searchAndContents(query, options)] is the same call as
    [search] with [text] and [highlights] taken out of the options and the
    computed [contents] put in, and likewise [findSimilarAndContents] and
    [findSimilar]: same request, same result. *)
Theorem and_contents_is_plain_call_with_contents :
  forall K this value options,
    default (∅ : JsObject) options !! "contents" = None ->
    searchAndContents K this value options
    = search K this value (Some (with_contents options))
    /\ findSimilarAndContents K this value options
       = findSimilar K this value (Some (with_contents options)).
Proof.
  intros K this value options Hown.
  unfold searchAndContents, search, findSimilarAndContents, findSimilar.
  rewrite !contents_body_as_spread by (discriminate || exact Hown).
  split; reflexivity.
Qed.

Lemma and_contents_is_plain_call_with_contents_witness :
  searchAndContents sample_constants sample_client "q" None
  = search sample_constants sample_client "q"
      (Some {[ "contents" := JObj {[ "text" := JBool true ]} ]})
  /\ findSimilarAndContents sample_constants sample_client "q" None
     = findSimilar sample_constants sample_client "q"
         (Some {[ "contents" := JObj {[ "text" := JBool true ]} ]}).
Proof.
  apply (and_contents_is_plain_call_with_contents sample_constants
           sample_client "q" None).
  reflexivity.
Defined.

(** ** Normalising the identifiers, continued *)

(** X11. Passing result objects to [getContents] is the same call as
    passing the list of their [id] strings, and passing one non-empty
    string is the same call as passing the one-element list of it: same
    request, same result, for any options. *)
Theorem getContents_results_same_as_their_ids :
  forall K this options,
    (forall rs : list (string * JsObject),
        getContents K this (IdsArray (result_with_id <$> rs)) options
        = getContents K this (IdsArray (JStr <$> (fst <$> rs))) options)
    /\ (forall s,
          s <> "" ->
          getContents K this (IdsString s) options
          = getContents K this (IdsArray [JStr s]) options).
Proof.
  intros K this options. split.
  - intros [|r rs]; [reflexivity|].
    unfold getContents.
    rewrite (requestIds_of_results (r :: rs)) by discriminate.
    rewrite (requestIds_of_strings (fst <$> r :: rs)) by discriminate.
    reflexivity.
  - intros s Hs. unfold getContents. simpl.
    destruct s as [|a s]; [congruence|]. reflexivity.
Qed.

Lemma getContents_results_same_as_their_ids_witness :
  getContents sample_constants sample_client (IdsString "id1") None
  = getContents sample_constants sample_client (IdsArray [JStr "id1"]) None.
Proof.
  apply (getContents_results_same_as_their_ids sample_constants sample_client
           None).
  discriminate.
Defined.






(** ** Sessions *)

(** X13. A sequence of calls on one client sends at most one request per
    call, and exactly one per call when none of them is a [getContents]:
    nothing is retried and nothing is sent besides the calls' own
    requests. *)
Theorem session_sends_at_most_one_request_per_call :
  forall K this srv calls log,
    (length (session_log K this srv log calls)
     <= length log + length calls)%nat
    /\ (no_getContents calls ->
        length (session_log K this srv log calls)
        = (length log + length calls)%nat).
Proof.
  intros K this srv calls. unfold session_log, no_getContents.
  induction calls as [|c calls IH]; intros log; simpl.
  - split; [lia|intros _; lia].
  - destruct (IH (snd (invoke K this c srv log))) as [Hle Heq].
    destruct (invoke_request K this c)
      as [[b Hreq]|(ids & o & e & Hc & _ & He)].
    + assert (Hlen : length (snd (invoke K this c srv log))
                     = S (length log)).
      { rewrite Hreq, request_sent, length_app. simpl. lia. }
      split; [lia|].
      intros Hall. inversion Hall as [|? ? _ Hrest]; subst.
      rewrite (Heq Hrest). lia.
    + assert (Hlen : snd (invoke K this c srv log) = log)
        by (rewrite He; reflexivity).
      rewrite Hlen in *. split; [lia|].
      intros Hall. inversion Hall as [|? ? Hhead _]; subst.
      destruct (Hhead ids o eq_refl).
Qed.

Lemma session_sends_at_most_one_request_per_call_witness :
  length (session_log sample_constants sample_client (always 200 JNull) []
            [CallSearch "q" None; CallFindSimilarAndContents "u" None])
  = (length ([] : list HttpRequest)
     + length [CallSearch "q" None; CallFindSimilarAndContents "u" None])%nat.
Proof.
  apply (session_sends_at_most_one_request_per_call sample_constants
           sample_client (always 200 JNull)
           [CallSearch "q" None; CallFindSimilarAndContents "u" None] []).
  repeat constructor; intros ids o H; discriminate H.
Defined.
